(** * LM Arena MVP: the suspicion-scoring engine of [lmarena.py]

    A shallow embedding of [update_suspicion_score] and [handle_vote]
    together with the session state they mutate, and the properties of
    the scoring engine proved over that embedding.

    Conventions of the embedding:
    - a Python [float] is an IEEE-754 binary64 value, modelled by the
      standard library's [spec_float] with [prec = 53], [emax = 1024];
      arithmetic is the correctly rounded (nearest-even) arithmetic of
      [SpecFloat], comparisons are the IEEE comparisons;
    - a [datetime] is its number of microseconds since the epoch (a [Z]);
    - [st.session_state] is a record passed explicitly; the dictionaries of
      [vote_history] are records with one field per key;
    - sets of rule names are [gset string], [value_counts] is a [gmap]. *)

From Stdlib Require Import ZArith String List Bool Lia.
From Stdlib Require Import Floats.SpecFloat.
From stdpp Require Import gmap strings list fin_maps fin_sets.

(* [set_solver] clears hypotheses it has already consumed. *)
#[local] Set Warnings "-clear-no-such-hyp".

Local Open Scope string_scope.
Local Open Scope list_scope.
Local Open Scope Z_scope.

(** ** Binary64 arithmetic, as Python's [float] *)

Module B64.

Definition prec : Z := 53.
Definition emax : Z := 1024.

Definition float := spec_float.

Definition mul : float → float → float := SFmul prec emax.
Definition add : float → float → float := SFadd prec emax.
Definition div : float → float → float := SFdiv prec emax.
Definition ltb : float → float → bool := SFltb.
Definition leb : float → float → bool := SFleb.
Definition eqb : float → float → bool := SFeqb.

(** [float(n)] for a Python [int]: the nearest binary64 value. *)
Definition of_Z (n : Z) : float := binary_normalize prec emax n 0 false.
Definition of_nat (n : nat) : float := of_Z (Z.of_nat n).

Definition zero : float := S754_zero false.

(** The literals of the source. [0.9], [0.3] and [0.8] are the doubles
    nearest to the decimal fractions. *)
Definition c0_9 : float := S754_finite false 8106479329266893 (-53).
Definition c0_3 : float := S754_finite false 5404319552844595 (-54).
Definition c0_8 : float := S754_finite false 7205759403792794 (-53).
Definition c1_0 : float := Eval vm_compute in of_Z 1.
Definition c3 : float := Eval vm_compute in of_Z 3.
Definition c5 : float := Eval vm_compute in of_Z 5.
Definition c10 : float := Eval vm_compute in of_Z 10.

(** A value that is neither negative nor a NaN, with a positive sign
    bit: what every stored score is. *)
Definition sign_clear (x : float) : bool :=
  match x with
  | S754_zero s | S754_infinity s | S754_finite s _ _ => negb s
  | S754_nan => false
  end.

End B64.

Abbreviation float := B64.float.

(** ** Data model *)

(** One entry of [st.session_state.vote_history]: the dictionary built by
    [handle_vote]. The key [suspicion_score_after] is absent until
    [handle_vote] writes it after the evaluation. *)
Record vote_record := mk_vote_record {
  judge_hash : string;
  model_a : string;
  model_b : string;
  battle_pair : string * string;
  winner : string;
  tstamp : Z;
  prompt : string;
  suspicion_score_after : option float
}.

(** The three values ever assigned to [st.session_state.status], and the
    strings (UTF-8 bytes) the source writes for them. *)
Inductive status_t := Normal | Suspicious | Flagged.

Definition status_label (s : status_t) : string :=
  match s with
  | Normal => "✅ Normal"
  | Suspicious => "⚠️ Suspicious"
  | Flagged => "🚩 FLAGGED"
  end.

(** The part of [st.session_state] the scoring engine reads and writes
    (the two response texts only feed the page and are left out). *)
Record session_state := mk_session_state {
  vote_history : list vote_record;
  session_judge_hash : string;
  suspicion_score : float;
  status : status_t;
  triggered_rules : gset string;
  current_prompt : string
}.

(** Session state initialisation: the block run when [vote_history] is not
    yet in the session. The judge identifier is drawn from [uuid4]. *)
Definition session_state_init (uuid : string) : session_state :=
  {| vote_history := [];
     session_judge_hash := "user_" +:+ uuid;
     suspicion_score := B64.zero;
     status := Normal;
     triggered_rules := ∅;
     current_prompt := "Explain the concept of photosynthesis in simple terms." |}.

(** ** Signal calculators (section 2 of [update_suspicion_score]) *)

(** [df.tail(n)]: the last [n] rows, all of them when there are fewer. *)
Definition tail {A} (n : nat) (l : list A) : list A := drop (length l - n) l.

(** [(iloc[-1]['tstamp'] - iloc[-2]['tstamp']).total_seconds() < 3].
    A [timedelta] below three seconds is one below 3_000_000 microseconds.
    With fewer than two rows [iloc[-2]] raises; the length guard of
    [update_suspicion_score] excludes that, the [false] is never used. *)
Definition is_fast_vote (history_df : list vote_record) : bool :=
  match rev history_df with
  | r1 :: r2 :: _ => (tstamp r1 - tstamp r2 <? 3000000)%Z
  | _ => false
  end.

(** [winner_list.count(w)] *)
Definition count (w : string) (l : list string) : nat := count_occ string_dec l w.

(** [w in ['model_a', 'model_b']] *)
Definition in_models (w : string) : bool :=
  String.eqb w "model_a" || String.eqb w "model_b".

Definition has_strong_bias (history_df : list vote_record) : bool :=
  let last_5_votes := tail 5 history_df in
  if (length last_5_votes =? 5)%nat then
    let winner_list := map winner last_5_votes in
    match winner_list with
    | w0 :: _ => (count w0 winner_list =? 5)%nat && in_models w0
    | [] => false
    end
  else false.

(** [series.value_counts()]: how often each value occurs. *)
Definition value_counts `{Countable K} (l : list K) : gmap K nat :=
  foldr (λ k m, <[k := S (default 0%nat (m !! k))]> m) ∅ l.

(** [counts.max()] of a non-empty series of counts. *)
Definition counts_max `{Countable K} (m : gmap K nat) : nat :=
  max_list (snd <$> map_to_list m).

Definition is_repetitive_battle (history_df : list vote_record) : bool :=
  let battle_counts := value_counts (battle_pair <$> history_df) in
  if bool_decide (battle_counts = ∅) then false
  else (5 <? counts_max battle_counts)%nat.

(** [series.nunique()] *)
Definition nunique (l : list string) : nat :=
  size (list_to_set l : gset string).

Definition prompt_diversity (history_df : list vote_record) : float :=
  if (0 <? length history_df)%nat
  then B64.div (B64.of_nat (nunique (prompt <$> history_df)))
               (B64.of_nat (length history_df))
  else B64.c1_0.

Definition is_repetitive_prompt (history_df : list vote_record) : bool :=
  B64.ltb (prompt_diversity history_df) B64.c0_3
  && (5 <? length history_df)%nat.

(** [s.str.contains('tie')]: the pattern occurs somewhere in [s]. *)
Fixpoint str_contains (pat s : string) : bool :=
  String.prefix pat s ||
  match s with
  | EmptyString => false
  | String _ s' => str_contains pat s'
  end.

Definition tie_rate (history_df : list vote_record) : float :=
  B64.div
    (B64.of_nat (length (List.filter (λ r, str_contains "tie" (winner r)) history_df)))
    (B64.of_nat (length history_df)).

Definition has_excessive_ties (history_df : list vote_record) : bool :=
  B64.ltb B64.c0_8 (tie_rate history_df) && (5 <? length history_df)%nat.

(** The five metrics of one evaluation. *)
Record signals := mk_signals {
  fast_vote : bool;
  strong_bias : bool;
  repetitive_battle : bool;
  repetitive_prompt : bool;
  excessive_ties : bool
}.

Definition compute_signals (history_df : list vote_record) : signals :=
  {| fast_vote := is_fast_vote history_df;
     strong_bias := has_strong_bias history_df;
     repetitive_battle := is_repetitive_battle history_df;
     repetitive_prompt := is_repetitive_prompt history_df;
     excessive_ties := has_excessive_ties history_df |}.

(** ** Rules (section 3 of [update_suspicion_score]) *)

(** The running pair of the rule section: the score being incremented and
    the local set [triggered]. *)
Definition acc_t : Type := float * gset string.

(** [if cond: score += penalty; triggered.add(name)] *)
Definition rule (cond : bool) (penalty : Z) (name : string) (acc : acc_t) : acc_t :=
  if cond then (B64.add acc.1 (B64.of_Z penalty), {[name]} ∪ acc.2) else acc.

(** [not triggered] *)
Definition none_triggered (acc : acc_t) : bool := bool_decide (acc.2 = ∅).

Definition combination_rules (sg : signals) (acc : acc_t) : acc_t :=
  let acc := rule (fast_vote sg && strong_bias sg) 4 "Fast & Biased" acc in
  let acc := rule (strong_bias sg && repetitive_battle sg) 3 "Biased & Repetitive Battles" acc in
  let acc := rule (fast_vote sg && repetitive_prompt sg) 2 "Fast & Repetitive Prompts" acc in
  let acc := rule (fast_vote sg && excessive_ties sg) 2 "Fast & Excessive Ties" acc in
  acc.

Definition strong_bias_rule (sg : signals) (acc : acc_t) : acc_t :=
  rule (strong_bias sg && none_triggered acc) 1 "Strong Bias" acc.

Definition fast_voting_rule (sg : signals) (acc : acc_t) : acc_t :=
  rule (fast_vote sg && none_triggered acc) 1 "Fast Voting" acc.

Definition individual_rules (sg : signals) (acc : acc_t) : acc_t :=
  fast_voting_rule sg (strong_bias_rule sg acc).

Definition apply_rules (sg : signals) (score : float) : acc_t :=
  individual_rules sg (combination_rules sg (score, ∅)).

(** [max(0, score)]: Python keeps the first argument unless the second is
    strictly greater, so a NaN or a negative zero also gives [0]. The
    integer [0] it then returns behaves as the float [+0.0] in every later
    use ([0 * 0.9], comparisons, formatting). *)
Definition max0 (score : float) : float :=
  if B64.ltb B64.zero score then score else B64.zero.

(** Section 4: the status derived from the new score. [x >= c] is [c <= x]. *)
Definition classify (score : float) : status_t :=
  if B64.leb B64.c10 score then Flagged
  else if B64.leb B64.c5 score then Suspicious
  else Normal.

(** ** [update_suspicion_score] *)

Definition decay (score : float) : float := B64.mul score B64.c0_9.

Definition update_suspicion_score (st : session_state) : session_state :=
  let history_df := vote_history st in
  if (length history_df <? 3)%nat then st
  else
    let score := decay (suspicion_score st) in
    let '(score, triggered) := apply_rules (compute_signals history_df) score in
    let score := max0 score in
    {| vote_history := vote_history st;
       session_judge_hash := session_judge_hash st;
       suspicion_score := score;
       status := classify score;
       triggered_rules := triggered;
       current_prompt := current_prompt st |}.

(** ** [handle_vote] *)

(** [tuple(sorted((a, b)))] *)
Definition sorted_pair (a b : string) : string * string :=
  if String.ltb b a then (b, a) else (a, b).

Definition set_score_after (score : float) (r : vote_record) : vote_record :=
  {| judge_hash := judge_hash r; model_a := model_a r; model_b := model_b r;
     battle_pair := battle_pair r; winner := winner r; tstamp := tstamp r;
     prompt := prompt r; suspicion_score_after := Some score |}.

(** [l[-1] = f(l[-1])] *)
Definition alter_last {A} (f : A → A) (l : list A) : list A :=
  alter f (length l - 1)%nat l.

(** [now] is the value of [datetime.now()], [new_prompt] the outcome of
    [np.random.choice]: the two readings of the environment. *)
Definition handle_vote (winner_choice : string) (now : Z) (new_prompt : string)
    (st : session_state) : session_state :=
  let vote_record :=
    {| judge_hash := session_judge_hash st;
       model_a := "model_alpha";
       model_b := "model_beta";
       battle_pair := sorted_pair "model_alpha" "model_beta";
       winner := winner_choice;
       tstamp := now;
       prompt := current_prompt st;
       suspicion_score_after := None |} in
  let st1 :=
    {| vote_history := vote_history st ++ [vote_record];
       session_judge_hash := session_judge_hash st;
       suspicion_score := suspicion_score st;
       status := status st;
       triggered_rules := triggered_rules st;
       current_prompt := current_prompt st |} in
  let st2 := update_suspicion_score st1 in
  {| vote_history :=
       alter_last (set_score_after (suspicion_score st2)) (vote_history st2);
     session_judge_hash := session_judge_hash st2;
     suspicion_score := suspicion_score st2;
     status := status st2;
     triggered_rules := triggered_rules st2;
     current_prompt := new_prompt |}.

(** The "Generate Responses" button: the typed prompt becomes current. *)
Definition generate_responses (prompt_input : string) (st : session_state)
    : session_state :=
  {| vote_history := vote_history st;
     session_judge_hash := session_judge_hash st;
     suspicion_score := suspicion_score st;
     status := status st;
     triggered_rules := triggered_rules st;
     current_prompt := prompt_input |}.

(** ** Sessions *)

(** What a user can do to the page between two reruns of the script. *)
Inductive action :=
| Vote (winner_choice : string) (now : Z) (new_prompt : string)
| Generate (prompt_input : string).

Definition step (st : session_state) (a : action) : session_state :=
  match a with
  | Vote w now p => handle_vote w now p st
  | Generate p => generate_responses p st
  end.

Definition run (st : session_state) (acts : list action) : session_state :=
  fold_left step acts st.

(** The states a session can be in. *)
Inductive reachable : session_state → Prop :=
| reachable_init uuid : reachable (session_state_init uuid)
| reachable_step st a : reachable st → reachable (step st a).

(** * Properties *)

(** ** Signs under binary64 rounding

    The rounding of [SpecFloat] shifts a mantissa right and then adds at
    most one to it: a mantissa that starts non-negative stays so, and the
    rounded result carries the sign it was given. *)

Section Rounding.

Local Abbreviation prec := B64.prec.
Local Abbreviation emax := B64.emax.

Lemma shr_1_nonneg mrs : 0 ≤ shr_m mrs → 0 ≤ shr_m (shr_1 mrs).
Proof.
  destruct mrs as [m r s]; simpl.
  destruct m as [|[p|p|]|p]; simpl; lia.
Qed.

Lemma iter_shr_1_nonneg p : ∀ mrs,
  0 ≤ shr_m mrs → 0 ≤ shr_m (SpecFloat.iter_pos shr_1 p mrs).
Proof.
  induction p as [p IH|p IH|]; intros mrs Hm; simpl.
  - apply IH, IH, shr_1_nonneg, Hm.
  - apply IH, IH, Hm.
  - apply shr_1_nonneg, Hm.
Qed.

Lemma shr_nonneg mrs e n : 0 ≤ shr_m mrs → 0 ≤ shr_m (shr mrs e n).1.
Proof.
  intros Hm. destruct n; simpl; auto using iter_shr_1_nonneg.
Qed.

Lemma shr_m_of_loc m l : shr_m (shr_record_of_loc m l) = m.
Proof. by destruct l as [|[]]. Qed.

Lemma shr_fexp_nonneg m e l : 0 ≤ m → 0 ≤ shr_m (shr_fexp prec emax m e l).1.
Proof.
  intros Hm. unfold shr_fexp. apply shr_nonneg. by rewrite shr_m_of_loc.
Qed.

Lemma round_nearest_even_nonneg m l : 0 ≤ m → 0 ≤ round_nearest_even m l.
Proof.
  intros Hm. destruct l as [|[]]; simpl; try lia.
  destruct (Z.even m); lia.
Qed.

Lemma binary_round_aux_sign_clear m e l :
  0 ≤ m → B64.sign_clear (binary_round_aux prec emax false m e l) = true.
Proof.
  intros Hm. unfold binary_round_aux.
  pose proof (shr_fexp_nonneg m e l Hm) as H1.
  destruct (shr_fexp prec emax m e l) as [mrs' e']; simpl in H1.
  pose proof (shr_fexp_nonneg
                (round_nearest_even (shr_m mrs') (loc_of_shr_record mrs'))
                e' loc_Exact (round_nearest_even_nonneg _ _ H1)) as H2.
  destruct (shr_fexp prec emax _ e' loc_Exact) as [mrs'' e'']; simpl in H2.
  destruct (shr_m mrs'') as [|q|q]; [done| |lia].
  by destruct (e'' <=? emax - prec).
Qed.

Lemma binary_round_sign_clear m e :
  B64.sign_clear (binary_round prec emax false m e) = true.
Proof.
  unfold binary_round.
  destruct (shl_align m e _) as [mz ez].
  by apply binary_round_aux_sign_clear.
Qed.

Lemma mul_sign_clear x y :
  B64.sign_clear x = true → B64.sign_clear y = true →
  (∃ m e, y = S754_finite false m e) →
  B64.sign_clear (B64.mul x y) = true.
Proof.
  intros Hx _ (my & ey & ->).
  destruct x as [[]|[]| |[] mx ex]; try done; simpl.
  by apply binary_round_aux_sign_clear.
Qed.

Lemma add_sign_clear x y :
  B64.sign_clear x = true → B64.sign_clear y = true →
  B64.sign_clear (B64.add x y) = true.
Proof.
  intros Hx Hy.
  destruct x as [[]|[]| |[] mx ex]; try done;
    destruct y as [[]|[]| |[] my ey]; try done.
  unfold B64.add, SFadd, cond_Zopp, binary_normalize.
  by apply binary_round_sign_clear.
Qed.

Lemma of_Z_sign_clear n : 0 ≤ n → B64.sign_clear (B64.of_Z n) = true.
Proof.
  intros Hn. unfold B64.of_Z, binary_normalize.
  destruct n; [done| |lia]. apply binary_round_sign_clear.
Qed.

Lemma decay_sign_clear s :
  B64.sign_clear s = true → B64.sign_clear (decay s) = true.
Proof. intros Hs. apply mul_sign_clear; [done|done|]. by eexists _, _. Qed.

(** A comparison read the other way round. *)
Lemma SFcompare_swap x y : SFcompare y x = CompOpp <$> SFcompare x y.
Proof.
  destruct x as [sx|sx| |sx mx ex], y as [sy|sy| |sy my ey]; simpl;
    try done; try (by destruct sx); try (by destruct sy);
    try (by destruct sx, sy).
  assert (Pos.compare_cont Eq my mx = CompOpp (Pos.compare_cont Eq mx my))
    as Hm by (by rewrite Pos.compare_cont_antisym).
  destruct sx, sy; simpl; try done;
    rewrite (Z.compare_antisym ex ey), Hm;
    destruct (ex ?= ey); simpl; try done;
    by destruct (Pos.compare_cont Eq mx my).
Qed.

Lemma ltb_not_leb x y : B64.ltb x y = true → B64.leb y x = false.
Proof.
  unfold B64.ltb, B64.leb, SFltb, SFleb. rewrite (SFcompare_swap x y).
  by destruct (SFcompare x y) as [[]|].
Qed.

End Rounding.

(** ** The clamp and the classifier *)

Lemma max0_sign_clear x : B64.sign_clear (max0 x) = true.
Proof. unfold max0. by destruct x as [[]|[]| |[] m e]. Qed.

Lemma max0_nonneg x : B64.leb B64.zero (max0 x) = true.
Proof. unfold max0. by destruct x as [[]|[]| |[] m e]. Qed.

Lemma max0_id x : B64.sign_clear x = true → max0 x = x.
Proof. unfold max0. by destruct x as [[]|[]| |[] m e]. Qed.

Lemma sign_clear_nonneg x : B64.sign_clear x = true → B64.leb B64.zero x = true.
Proof. by destruct x as [[]|[]| |[] m e]. Qed.

(** The classifier as the table of thresholds. *)
Lemma classify_flagged s : B64.leb B64.c10 s = true → classify s = Flagged.
Proof. unfold classify. by intros ->. Qed.

Lemma classify_suspicious s :
  B64.leb B64.c5 s = true → B64.ltb s B64.c10 = true → classify s = Suspicious.
Proof.
  intros H5 H10. unfold classify. by rewrite (ltb_not_leb _ _ H10), H5.
Qed.

Lemma lt_5_lt_10 s : B64.ltb s B64.c5 = true → B64.ltb s B64.c10 = true.
Proof.
  destruct s as [?|[]| |[] m e]; try done.
  unfold B64.ltb, SFltb, SFcompare, B64.c5, B64.c10.
  destruct (Z.compare_spec e (-50)) as [->|He|He]; [| |discriminate].
  - by intros _.
  - intros _. by rewrite (proj2 (Z.compare_lt_iff e (-49))) by lia.
Qed.

Lemma classify_normal s : B64.ltb s B64.c5 = true → classify s = Normal.
Proof.
  intros H5. unfold classify.
  by rewrite (ltb_not_leb _ _ (lt_5_lt_10 _ H5)), (ltb_not_leb _ _ H5).
Qed.

(** ** The two paths of [update_suspicion_score] *)

(** The state written by a full evaluation. *)
Definition evaluated (st : session_state) : session_state :=
  let r := apply_rules (compute_signals (vote_history st)) (decay (suspicion_score st)) in
  {| vote_history := vote_history st;
     session_judge_hash := session_judge_hash st;
     suspicion_score := max0 r.1;
     status := classify (max0 r.1);
     triggered_rules := r.2;
     current_prompt := current_prompt st |}.

Lemma update_short st :
  (length (vote_history st) < 3)%nat → update_suspicion_score st = st.
Proof.
  intros H. unfold update_suspicion_score.
  by rewrite (proj2 (Nat.ltb_lt _ _) H).
Qed.

Lemma update_long st :
  (3 ≤ length (vote_history st))%nat → update_suspicion_score st = evaluated st.
Proof.
  intros H. unfold update_suspicion_score, evaluated.
  rewrite (proj2 (Nat.ltb_ge _ _) H).
  by destruct (apply_rules _ _).
Qed.

Lemma update_history st : vote_history (update_suspicion_score st) = vote_history st.
Proof.
  destruct (Nat.lt_ge_cases (length (vote_history st)) 3).
  - by rewrite update_short.
  - by rewrite update_long.
Qed.

(** The state on which [handle_vote] runs the evaluation. *)
Definition appended (winner_choice : string) (now : Z) (st : session_state)
    : session_state :=
  {| vote_history :=
       vote_history st ++
       [ {| judge_hash := session_judge_hash st;
            model_a := "model_alpha";
            model_b := "model_beta";
            battle_pair := sorted_pair "model_alpha" "model_beta";
            winner := winner_choice;
            tstamp := now;
            prompt := current_prompt st;
            suspicion_score_after := None |} ];
     session_judge_hash := session_judge_hash st;
     suspicion_score := suspicion_score st;
     status := status st;
     triggered_rules := triggered_rules st;
     current_prompt := current_prompt st |}.

Lemma alter_last_snoc {A} (f : A → A) (l : list A) (x : A) :
  alter_last f (l ++ [x]) = l ++ [f x].
Proof.
  unfold alter_last. rewrite length_app. simpl.
  replace (length l + 1 - 1)%nat with (length l + 0)%nat by lia.
  by rewrite alter_app_r.
Qed.

Lemma handle_vote_history w now p st :
  vote_history (handle_vote w now p st) =
  vote_history st ++
    [ set_score_after (suspicion_score (handle_vote w now p st))
        {| judge_hash := session_judge_hash st;
           model_a := "model_alpha";
           model_b := "model_beta";
           battle_pair := sorted_pair "model_alpha" "model_beta";
           winner := w;
           tstamp := now;
           prompt := current_prompt st;
           suspicion_score_after := None |} ].
Proof.
  unfold handle_vote. fold (appended w now st).
  cbn [vote_history suspicion_score]. rewrite update_history.
  change (vote_history (appended w now st)) with (vote_history st ++
    [mk_vote_record (session_judge_hash st) "model_alpha" "model_beta"
       (sorted_pair "model_alpha" "model_beta") w now (current_prompt st) None]).
  by rewrite alter_last_snoc.
Qed.

Lemma handle_vote_length w now p st :
  length (vote_history (handle_vote w now p st)) = S (length (vote_history st)).
Proof. rewrite handle_vote_history, length_app. simpl. lia. Qed.

Lemma handle_vote_short w now p st :
  (length (vote_history st) < 2)%nat →
  suspicion_score (handle_vote w now p st) = suspicion_score st ∧
  status (handle_vote w now p st) = status st ∧
  triggered_rules (handle_vote w now p st) = triggered_rules st.
Proof.
  intros H. unfold handle_vote. fold (appended w now st).
  rewrite update_short; [done|]. simpl. rewrite length_app. simpl. lia.
Qed.

Lemma handle_vote_long w now p st :
  (2 ≤ length (vote_history st))%nat →
  suspicion_score (handle_vote w now p st)
    = suspicion_score (evaluated (appended w now st)) ∧
  status (handle_vote w now p st) = status (evaluated (appended w now st)) ∧
  triggered_rules (handle_vote w now p st)
    = triggered_rules (evaluated (appended w now st)).
Proof.
  intros H. unfold handle_vote. fold (appended w now st).
  rewrite update_long; [done|]. simpl. rewrite length_app. simpl. lia.
Qed.

(** ** The invariant of a session *)

(** The stored score is a non-negative number with a clear sign bit, and
    the stored status was computed from it. *)
Definition consistent (st : session_state) : Prop :=
  B64.sign_clear (suspicion_score st) = true ∧
  status st = classify (suspicion_score st).

Lemma consistent_init uuid : consistent (session_state_init uuid).
Proof. by split. Qed.

Lemma consistent_handle_vote w now p st :
  consistent st → consistent (handle_vote w now p st).
Proof.
  intros [Hs Hc]. unfold consistent.
  destruct (Nat.lt_ge_cases (length (vote_history st)) 2) as [Hl|Hl].
  - destruct (handle_vote_short w now p st Hl) as (-> & -> & _). by split.
  - destruct (handle_vote_long w now p st Hl) as (-> & -> & _).
    split; [apply max0_sign_clear|done].
Qed.

Lemma reachable_consistent st : reachable st → consistent st.
Proof.
  induction 1 as [uuid|st [w now p|q] _ IH].
  - apply consistent_init.
  - by apply consistent_handle_vote.
  - exact IH.
Qed.

Lemma reachable_run st acts : reachable st → reachable (run st acts).
Proof.
  revert st. induction acts as [|a acts IH]; intros st H; [done|].
  simpl. apply IH. by constructor.
Qed.

(** ** Rules: what firing does to the pair *)

Lemma rule_untriggered c pen n acc : (rule c pen n acc).2 = ∅ → rule c pen n acc = acc.
Proof. unfold rule. destruct c; [simpl; set_solver|done]. Qed.

Lemma rule_sign_clear c pen n acc :
  0 ≤ pen → B64.sign_clear acc.1 = true → B64.sign_clear (rule c pen n acc).1 = true.
Proof.
  intros Hp Ha. unfold rule. destruct c; [|done].
  by apply add_sign_clear, of_Z_sign_clear.
Qed.

Lemma rule_triggered c pen n acc :
  (rule c pen n acc).2 = if c then {[n]} ∪ acc.2 else acc.2.
Proof. by destruct c. Qed.

Lemma rule_score c pen n acc :
  (rule c pen n acc).1 = if c then B64.add acc.1 (B64.of_Z pen) else acc.1.
Proof. by destruct c. Qed.

Lemma apply_rules_untriggered sg s : (apply_rules sg s).2 = ∅ → (apply_rules sg s).1 = s.
Proof.
  unfold apply_rules, individual_rules, fast_voting_rule, strong_bias_rule,
    combination_rules.
  intros H.
  repeat (rewrite (rule_untriggered _ _ _ _ H) in H |- *).
  done.
Qed.

Lemma apply_rules_sign_clear sg s :
  B64.sign_clear s = true → B64.sign_clear (apply_rules sg s).1 = true.
Proof.
  intros Hs.
  unfold apply_rules, individual_rules, fast_voting_rule, strong_bias_rule,
    combination_rules.
  repeat (apply rule_sign_clear; [lia|]). done.
Qed.

(** On a consistent state the clamp of an evaluation changes nothing. *)
Lemma evaluated_score st :
  B64.sign_clear (suspicion_score st) = true →
  suspicion_score (evaluated st) =
  (apply_rules (compute_signals (vote_history st)) (decay (suspicion_score st))).1.
Proof.
  intros Hs. unfold evaluated; simpl.
  by apply max0_id, apply_rules_sign_clear, decay_sign_clear.
Qed.

(** ** Claims on the state after a vote *)

(** Five votes for model A, three seconds apart, on changing prompts. *)
Definition five_votes_for_model_a : session_state :=
  run (session_state_init "1b9d6bcd")
    [ Vote "model_a" 0 "Tell me a joke.";
      Vote "model_a" 3000000 "Explain gravity.";
      Vote "model_a" 6000000 "Write a short story.";
      Vote "model_a" 9000000 "Tell me a joke.";
      Vote "model_a" 12000000 "Explain gravity." ].

(** C1. After every vote of a session the stored status is the image of
    the stored score under the classifier, and the classifier is the table
    of thresholds: a score of at least 10 is FLAGGED, one of at least 5 and
    below 10 is SUSPICIOUS, one below 5 is NORMAL. *)
Theorem status_is_classifier_image st w now p :
  reachable st →
  let st' := handle_vote w now p st in
  status st' = classify (suspicion_score st') ∧
  (B64.leb B64.c10 (suspicion_score st') = true → status st' = Flagged) ∧
  (B64.leb B64.c5 (suspicion_score st') = true →
   B64.ltb (suspicion_score st') B64.c10 = true → status st' = Suspicious) ∧
  (B64.ltb (suspicion_score st') B64.c5 = true → status st' = Normal).
Proof.
  intros Hr st'.
  assert (consistent st') as [_ Hc].
  { apply reachable_consistent. by apply (reachable_step st (Vote w now p)). }
  rewrite Hc. split; [done|].
  auto using classify_flagged, classify_suspicious, classify_normal.
Qed.

Lemma status_is_classifier_image_witness :
  let st' := handle_vote "model_a" 13000000 "Tell me a joke."
               five_votes_for_model_a in
  (suspicion_score five_votes_for_model_a = B64.c1_0 ∧
   suspicion_score st' = S754_finite false 8894609264056730 (-50) ∧
   status st' = Suspicious) ∧
  status st' = classify (suspicion_score st') ∧
  (B64.leb B64.c10 (suspicion_score st') = true → status st' = Flagged) ∧
  (B64.leb B64.c5 (suspicion_score st') = true →
   B64.ltb (suspicion_score st') B64.c10 = true → status st' = Suspicious) ∧
  (B64.ltb (suspicion_score st') B64.c5 = true → status st' = Normal).
Proof.
  split.
  - vm_compute. exact (conj eq_refl (conj eq_refl eq_refl)).
  - apply (status_is_classifier_image five_votes_for_model_a).
    apply reachable_run, reachable_init.
Defined.

(** C9. The score starts at 0.0; decay, penalties and the clamp of one
    evaluation give a score of at least 0 whatever they start from; and a
    vote on a state whose score is at least 0 leaves a score of at least 0
    (evaluated or skipped). *)
Theorem score_stays_nonnegative :
  (∀ uuid, suspicion_score (session_state_init uuid) = B64.zero) ∧
  (∀ sg s, B64.leb B64.zero (max0 (apply_rules sg (decay s)).1) = true) ∧
  (∀ st w now p,
     B64.leb B64.zero (suspicion_score st) = true →
     B64.leb B64.zero (suspicion_score (handle_vote w now p st)) = true).
Proof.
  split; [done|]. split; [intros; apply max0_nonneg|].
  intros st w now p Hs.
  destruct (Nat.lt_ge_cases (length (vote_history st)) 2) as [Hl|Hl].
  - by destruct (handle_vote_short w now p st Hl) as (-> & _).
  - destruct (handle_vote_long w now p st Hl) as (-> & _).
    apply max0_nonneg.
Qed.

Lemma score_stays_nonnegative_witness :
  let st := five_votes_for_model_a in
  let st' := handle_vote "model_a" 13000000 "Tell me a joke." st in
  (suspicion_score st = B64.c1_0 ∧
   suspicion_score st' = S754_finite false 8894609264056730 (-50)) ∧
  B64.leb B64.zero (suspicion_score st) = true ∧
  B64.leb B64.zero (suspicion_score st') = true ∧
  B64.leb B64.zero
    (max0 (apply_rules (mk_signals true true true false false)
             (decay (B64.of_Z (-20)))).1) = true.
Proof.
  intros st st'.
  assert (B64.leb B64.zero (suspicion_score st) = true) as Hs
    by (vm_compute; reflexivity).
  split; [vm_compute; exact (conj eq_refl eq_refl)|].
  split; [exact Hs|]. split.
  - exact (proj2 (proj2 score_stays_nonnegative) st "model_a" 13000000
             "Tell me a joke." Hs).
  - exact (proj1 (proj2 score_stays_nonnegative) _ _).
Defined.

(** C5. A vote that leaves the history shorter than 3 changes neither the
    score nor the status nor the triggered rules; the history grows by the
    new event, which records the unchanged score. *)
Theorem short_history_vote_is_skipped st w now p :
  (length (vote_history st ++ [ mk_vote_record (session_judge_hash st)
     "model_alpha" "model_beta" (sorted_pair "model_alpha" "model_beta")
     w now (current_prompt st) None ]) < 3)%nat →
  let st' := handle_vote w now p st in
  suspicion_score st' = suspicion_score st ∧
  status st' = status st ∧
  triggered_rules st' = triggered_rules st ∧
  vote_history st' =
    vote_history st ++
    [ mk_vote_record (session_judge_hash st) "model_alpha" "model_beta"
        (sorted_pair "model_alpha" "model_beta") w now (current_prompt st)
        (Some (suspicion_score st)) ].
Proof.
  intros Hl st'. rewrite length_app in Hl; simpl in Hl.
  destruct (handle_vote_short w now p st) as (Hs & Ht & Hr); [lia|].
  repeat split; try done.
  subst st'. by rewrite handle_vote_history, Hs.
Qed.

Lemma short_history_vote_is_skipped_witness :
  let st := session_state_init "1b9d6bcd" in
  let st' := handle_vote "model_b" 5000000 "Tell me a joke." st in
  suspicion_score st' = suspicion_score st ∧
  status st' = status st ∧
  triggered_rules st' = triggered_rules st ∧
  vote_history st' =
    vote_history st ++
    [ mk_vote_record (session_judge_hash st) "model_alpha" "model_beta"
        (sorted_pair "model_alpha" "model_beta") "model_b" 5000000
        (current_prompt st) (Some (suspicion_score st)) ].
Proof.
  apply (short_history_vote_is_skipped (session_state_init "1b9d6bcd")).
  simpl. lia.
Defined.

(** C8. The [suspicion_score_after] written on the event a vote appends is
    the score the evaluation of that same vote left in the state. *)
Theorem score_after_round_trip st w now p :
  ∃ r, vote_history (handle_vote w now p st) = vote_history st ++ [r] ∧
       winner r = w ∧ tstamp r = now ∧ prompt r = current_prompt st ∧
       suspicion_score_after r = Some (suspicion_score (handle_vote w now p st)) ∧
       suspicion_score (handle_vote w now p st) =
         suspicion_score (update_suspicion_score (appended w now st)).
Proof.
  eexists. split; [apply handle_vote_history|]. done.
Qed.

(** C2. On every evaluation of a session (history of at least 3 with the
    new vote) the rules add their penalties to the old score multiplied by
    0.9, whatever fires; and when no rule fires, the new score is the old
    score multiplied by 0.9, once. *)
Theorem decay_applied_once st w now p :
  reachable st →
  let st' := handle_vote w now p st in
  (3 ≤ length (vote_history st'))%nat →
  suspicion_score st' =
    (apply_rules (compute_signals (vote_history (appended w now st)))
                 (B64.mul (suspicion_score st) B64.c0_9)).1 ∧
  (triggered_rules st' = ∅ →
   suspicion_score st' = B64.mul (suspicion_score st) B64.c0_9).
Proof.
  intros Hr st' Hl. subst st'.
  rewrite handle_vote_length in Hl.
  destruct (handle_vote_long w now p st) as (Hs & _ & Htr); [lia|].
  destruct (reachable_consistent st Hr) as [Hsc _].
  rewrite Hs, Htr, evaluated_score by done.
  split; [done|]. intros Ht.
  by apply apply_rules_untriggered.
Qed.

Lemma decay_applied_once_witness :
  let st := run (session_state_init "1b9d6bcd")
              [ Vote "model_a" 0 "Tell me a joke.";
                Vote "model_b" 1000000 "Explain gravity.";
                Vote "model_a" 2000000 "Write a short story." ] in
  suspicion_score (handle_vote "tie" 9000000 "Tell me a joke." st)
  = B64.mul (suspicion_score st) B64.c0_9.
Proof.
  intros st.
  apply (decay_applied_once st "tie" 9000000 "Tell me a joke.").
  - apply reachable_run, reachable_init.
  - vm_compute. lia.
  - vm_compute. reflexivity.
Defined.

Example decay_applied_once_values :
  let st := run (session_state_init "1b9d6bcd")
              [ Vote "model_a" 0 "Tell me a joke.";
                Vote "model_b" 1000000 "Explain gravity.";
                Vote "model_a" 2000000 "Write a short story." ] in
  triggered_rules st = {[ "Fast Voting" ]} ∧
  suspicion_score st = B64.c1_0 ∧
  suspicion_score (handle_vote "tie" 9000000 "Tell me a joke." st) = B64.c0_9.
Proof. vm_compute. exact (conj eq_refl (conj eq_refl eq_refl)). Qed.

(** ** The rule table: combination rules before the two fallbacks *)

Definition combination_names : gset string :=
  {[ "Fast & Biased"; "Biased & Repetitive Battles";
     "Fast & Repetitive Prompts"; "Fast & Excessive Ties" ]}.

Lemma none_triggered_true (acc : acc_t) : none_triggered acc = true ↔ acc.2 = ∅.
Proof. unfold none_triggered. apply bool_decide_eq_true. Qed.

Lemma rule_within c pen n acc (X : gset string) :
  n ∈ X → acc.2 ⊆ X → (rule c pen n acc).2 ⊆ X.
Proof. rewrite rule_triggered. destruct c; set_solver. Qed.

Lemma combination_rules_names sg s :
  (combination_rules sg (s, ∅)).2 ⊆ combination_names.
Proof.
  unfold combination_rules.
  repeat (apply rule_within; [by vm_compute|]).
  apply empty_subseteq.
Qed.

Lemma fallback_not_combination :
  ("Strong Bias" ∉ combination_names) ∧ ("Fast Voting" ∉ combination_names).
Proof. unfold combination_names. set_solver. Qed.

(** C3. In an evaluation, "Strong Bias" is in the final set exactly when
    the strong-bias signal holds and the set was empty after the four
    combination rules; "Fast Voting" exactly when the fast-vote signal
    holds and the set was still empty after the "Strong Bias" check. So a
    fallback name is never in the set together with any other name: not
    with a combination rule, and not with the other fallback. *)
Theorem fallback_only_when_nothing_fired sg s :
  let after_combination := combination_rules sg (s, ∅) in
  let after_strong_bias := strong_bias_rule sg after_combination in
  let triggered := (apply_rules sg s).2 in
  ("Strong Bias" ∈ triggered ↔
     strong_bias sg = true ∧ after_combination.2 = ∅) ∧
  ("Fast Voting" ∈ triggered ↔
     fast_vote sg = true ∧ after_strong_bias.2 = ∅) ∧
  (after_combination.2 ≠ ∅ →
     ("Strong Bias" ∉ triggered) ∧ ("Fast Voting" ∉ triggered)) ∧
  ((∃ n, n ∈ combination_names ∧ n ∈ triggered) →
     ("Strong Bias" ∉ triggered) ∧ ("Fast Voting" ∉ triggered)) ∧
  ¬ ("Strong Bias" ∈ triggered ∧ "Fast Voting" ∈ triggered).
Proof.
  intros c b t. subst t.
  unfold apply_rules, individual_rules. fold c. fold b.
  pose proof (combination_rules_names sg s) as Hc. fold c in Hc.
  destruct fallback_not_combination as [Hsb Hfv].
  assert (b.2 = if strong_bias sg && none_triggered c
                then {[ "Strong Bias" ]} ∪ c.2 else c.2) as Hb
    by apply rule_triggered.
  assert ((fast_voting_rule sg b).2 =
          if fast_vote sg && none_triggered b
          then {[ "Fast Voting" ]} ∪ b.2 else b.2) as Hf
    by apply rule_triggered.
  rewrite Hf. clear Hf.
  unfold none_triggered in *.
  destruct (decide (c.2 = ∅)) as [Hce|Hce].
  - rewrite (bool_decide_eq_true_2 _ Hce), Hce in Hb.
    destruct (strong_bias sg); simpl in Hb.
    + rewrite (bool_decide_eq_false_2 (b.2 = ∅)) by set_solver.
      rewrite andb_false_r, Hb, Hce. set_solver.
    + rewrite (bool_decide_eq_true_2 _ Hb), Hb, Hce.
      destruct (fast_vote sg); simpl; set_solver.
  - rewrite (bool_decide_eq_false_2 _ Hce), andb_false_r in Hb.
    rewrite (bool_decide_eq_false_2 (b.2 = ∅)) by congruence.
    rewrite andb_false_r, Hb. set_solver.
Qed.

Lemma fallback_only_when_nothing_fired_witness :
  let sg := mk_signals true true false false false in
  let triggered := (apply_rules sg B64.zero).2 in
  "Fast & Biased" ∈ triggered ∧
  ("Strong Bias" ∉ triggered) ∧ ("Fast Voting" ∉ triggered).
Proof.
  intros sg triggered.
  assert ("Fast & Biased" ∈ triggered) as H by (vm_compute; set_solver).
  split; [exact H|].
  apply (fallback_only_when_nothing_fired sg B64.zero).
  exists "Fast & Biased". split; [|exact H].
  unfold combination_names. set_solver.
Defined.

(** ** The strong-bias signal *)

Lemma tail_length {A} n (l : list A) : length (tail n l) = Nat.min n (length l).
Proof. unfold tail. rewrite length_drop. lia. Qed.

Lemma tail_snoc {A} n (l : list A) x : tail (S n) (l ++ [x]) = tail n l ++ [x].
Proof.
  unfold tail. rewrite length_app. simpl.
  replace (length l + 1 - S n)%nat with (length l - n)%nat by lia.
  rewrite drop_app_le; [done|lia].
Qed.

Lemma in_models_true w : in_models w = true ↔ w = "model_a" ∨ w = "model_b".
Proof.
  unfold in_models. rewrite orb_true_iff, !String.eqb_eq. done.
Qed.

Lemma count_five w1 w2 w3 w4 w5 :
  (count w1 [w1; w2; w3; w4; w5] =? 5)%nat = true ↔
  [w1; w2; w3; w4; w5] = replicate 5 w1.
Proof.
  rewrite Nat.eqb_eq. unfold count. simpl.
  repeat (destruct (string_dec _ w1); [subst|]);
    split; intros H; try done; try lia; simplify_eq.
Qed.

Lemma has_strong_bias_true h :
  has_strong_bias h = true ↔
  (5 ≤ length h)%nat ∧
  ∃ w, (w = "model_a" ∨ w = "model_b") ∧ winner <$> tail 5 h = replicate 5 w.
Proof.
  unfold has_strong_bias.
  pose proof (tail_length 5 h) as Hl.
  destruct (Nat.eqb_spec (length (tail 5 h)) 5) as [H5|H5].
  - destruct (tail 5 h) as [|r1 [|r2 [|r3 [|r4 [|r5 [|r6 t]]]]]]; try done.
    change (map winner [r1; r2; r3; r4; r5])
      with [winner r1; winner r2; winner r3; winner r4; winner r5].
    change (winner <$> [r1; r2; r3; r4; r5])
      with [winner r1; winner r2; winner r3; winner r4; winner r5].
    rewrite andb_true_iff, count_five, in_models_true.
    split.
    + intros [Hc Hm]. split; [lia|]. by exists (winner r1).
    + intros [_ (w & Hm & Hw)].
      assert (w = winner r1) as -> by (simpl in Hw; congruence).
      by split.
  - split; [done|]. intros [Hge _]. lia.
Qed.

(** C6. The strong-bias signal is false on a history of fewer than 5
    events; on one of at least 5 it holds exactly when the winners of the
    last 5 events are one and the same and that winner is model A or
    model B; five equal winners that name neither model (the two tie
    outcomes) leave it false. *)
Theorem strong_bias_signal h :
  ((length h < 5)%nat → has_strong_bias h = false) ∧
  ((5 ≤ length h)%nat →
     (has_strong_bias h = true ↔
      ∃ w, (w = "model_a" ∨ w = "model_b") ∧
           winner <$> tail 5 h = replicate 5 w)) ∧
  (∀ w, (w = "tie" ∨ w = "tie (bothbad)") →
     winner <$> tail 5 h = replicate 5 w → has_strong_bias h = false).
Proof.
  split; [|split].
  - intros Hl. apply not_true_is_false. rewrite has_strong_bias_true. lia.
  - intros Hl. rewrite has_strong_bias_true. naive_solver.
  - intros w Hw Ht. apply not_true_is_false. rewrite has_strong_bias_true.
    intros [_ (w' & Hw' & Ht')].
    rewrite Ht in Ht'. simpl in Ht'.
    assert (w = w') by congruence.
    destruct Hw, Hw'; congruence.
Qed.

Lemma strong_bias_signal_witness :
  let vote w := mk_vote_record "user_1b9d6bcd" "model_alpha" "model_beta"
                  ("model_alpha", "model_beta") w 0 "Explain gravity." None in
  has_strong_bias [vote "model_a"; vote "tie"] = false ∧
  has_strong_bias
    [vote "tie"; vote "model_b"; vote "model_b"; vote "model_b";
     vote "model_b"; vote "model_b"] = true ∧
  has_strong_bias
    [vote "tie"; vote "tie"; vote "tie"; vote "tie"; vote "tie"] = false.
Proof.
  intros vote. split; [|split].
  - apply (proj1 (strong_bias_signal _)). simpl. lia.
  - apply (proj1 (proj2 (strong_bias_signal _))); [simpl; lia|].
    exists "model_b". split; [by right|reflexivity].
  - apply (proj2 (proj2 (strong_bias_signal _)) "tie"); [by left|reflexivity].
Defined.

(** ** The repetitive-battle signal on a single battle pair *)

Lemma value_counts_replicate `{Countable K} (k : K) n :
  value_counts (replicate (S n) k) = {[ k := S n ]}.
Proof.
  induction n as [|n IH].
  - simpl. by rewrite lookup_empty, insert_empty.
  - change (value_counts (replicate (S (S n)) k))
      with (<[k := S (default 0%nat (value_counts (replicate (S n) k) !! k))]>
              (value_counts (replicate (S n) k))).
    by rewrite IH, lookup_singleton_eq, insert_singleton_eq.
Qed.

Lemma counts_max_singleton `{Countable K} (k : K) n :
  counts_max ({[ k := n ]} : gmap K nat) = n.
Proof.
  unfold counts_max. rewrite map_to_list_singleton. simpl. lia.
Qed.

(** Every vote of the history is on the pair [pair]. *)
Definition all_on_pair (pair : string * string) (h : list vote_record) : Prop :=
  Forall (λ r, battle_pair r = pair) h.

Lemma all_on_pair_replicate pair h :
  all_on_pair pair h → battle_pair <$> h = replicate (length h) pair.
Proof.
  induction 1 as [|r h Hr _ IH]; [done|]. by rewrite fmap_cons, Hr, IH.
Qed.

Lemma is_repetitive_battle_one_pair pair h :
  all_on_pair pair h → is_repetitive_battle h = (5 <? length h)%nat.
Proof.
  intros Hp. unfold is_repetitive_battle.
  rewrite (all_on_pair_replicate pair h Hp).
  destruct (length h) as [|n]; [done|].
  rewrite value_counts_replicate, counts_max_singleton.
  rewrite bool_decide_eq_false_2; [done|]. apply map_non_empty_singleton.
Qed.

(** The pair [handle_vote] writes on every vote. *)
Definition arena_pair : string * string := ("model_alpha", "model_beta").

Lemma sorted_pair_arena : sorted_pair "model_alpha" "model_beta" = arena_pair.
Proof. reflexivity. Qed.

Lemma handle_vote_on_pair w now p st :
  all_on_pair arena_pair (vote_history st) →
  all_on_pair arena_pair (vote_history (handle_vote w now p st)).
Proof.
  intros H. rewrite handle_vote_history. apply Forall_app. split; [done|].
  by repeat constructor.
Qed.

Lemma appended_on_pair w now st :
  all_on_pair arena_pair (vote_history st) →
  all_on_pair arena_pair (vote_history (appended w now st)).
Proof.
  intros H. unfold appended; simpl. apply Forall_app. split; [done|].
  by repeat constructor.
Qed.

Lemma reachable_on_pair st : reachable st → all_on_pair arena_pair (vote_history st).
Proof.
  induction 1 as [uuid|st [w now p|q] _ IH].
  - constructor.
  - by apply handle_vote_on_pair.
  - exact IH.
Qed.

(** C10. In a session every recorded vote carries the one battle pair
    ('model_alpha', 'model_beta'), the sorted pair [handle_vote] builds.
    Hence, once the history holds more than 5 votes, the repetitive-battle
    signal is true: on the stored history, on the history the evaluation
    of any vote reads, and so on every later one. *)
Theorem repetitive_battle_after_five_votes st :
  reachable st →
  sorted_pair "model_alpha" "model_beta" = ("model_alpha", "model_beta") ∧
  (∀ r, r ∈ vote_history st → battle_pair r = ("model_alpha", "model_beta")) ∧
  ((5 < length (vote_history st))%nat →
     is_repetitive_battle (vote_history st) = true) ∧
  (∀ w now,
     (5 < length (vote_history (appended w now st)))%nat →
     repetitive_battle (compute_signals (vote_history (appended w now st))) = true) ∧
  (∀ acts,
     (5 < length (vote_history st))%nat →
     is_repetitive_battle (vote_history (run st acts)) = true).
Proof.
  intros Hr. pose proof (reachable_on_pair st Hr) as Hp.
  split; [reflexivity|]. split; [|split; [|split]].
  - intros r Hin. by apply (proj1 (Forall_forall _ _) Hp).
  - intros Hl. rewrite (is_repetitive_battle_one_pair arena_pair) by done.
    by apply Nat.ltb_lt.
  - intros w now Hl. simpl.
    rewrite (is_repetitive_battle_one_pair arena_pair)
      by by apply appended_on_pair.
    by apply Nat.ltb_lt.
  - intros acts Hl.
    rewrite (is_repetitive_battle_one_pair arena_pair)
      by (apply reachable_on_pair; by apply reachable_run).
    apply Nat.ltb_lt.
    clear Hr Hp. revert st Hl.
    induction acts as [|[w now p|q] acts IH]; intros st Hl; simpl; [done| |].
    + apply IH. rewrite handle_vote_length. lia.
    + by apply IH.
Qed.

Lemma repetitive_battle_after_five_votes_witness :
  let st := run (session_state_init "1b9d6bcd")
              [ Vote "model_a" 0 "Tell me a joke.";
                Vote "tie" 4000000 "Explain gravity.";
                Vote "model_b" 9000000 "Write a short story.";
                Vote "tie (bothbad)" 15000000 "Tell me a joke.";
                Vote "model_a" 21000000 "Explain gravity.";
                Vote "model_b" 30000000 "Tell me a joke." ] in
  (5 < length (vote_history st))%nat ∧
  is_repetitive_battle (vote_history st) = true.
Proof.
  intros st.
  assert (reachable st) as Hr by apply reachable_run, reachable_init.
  assert (5 < length (vote_history st))%nat as Hl by (vm_compute; lia).
  split; [exact Hl|].
  exact (proj1 (proj2 (proj2 (repetitive_battle_after_five_votes st Hr))) Hl).
Defined.

(** ** Two scenarios on a history of six votes *)

(** No two consecutive winners are equal (as when the winners alternate). *)
Fixpoint adjacent_differ (ws : list string) : bool :=
  match ws with
  | a :: (b :: _) as rest => negb (String.eqb a b) && adjacent_differ rest
  | _ => true
  end.

(** Each timestamp is more than [gap] microseconds after the one before. *)
Fixpoint spaced_over (gap : Z) (ts : list Z) : bool :=
  match ts with
  | t1 :: (t2 :: _) as rest => (gap <? t2 - t1) && spaced_over gap rest
  | _ => true
  end.

Lemma is_fast_vote_snoc h r5 r6 :
  is_fast_vote (h ++ [r5; r6]) = (tstamp r6 - tstamp r5 <? 3000000).
Proof. unfold is_fast_vote. by rewrite rev_app_distr. Qed.

Lemma apply_rules_quiet sg s :
  fast_vote sg = false → strong_bias sg = false → apply_rules sg s = (s, ∅).
Proof.
  intros Hf Hb.
  unfold apply_rules, individual_rules, fast_voting_rule, strong_bias_rule,
    combination_rules.
  by rewrite Hf, Hb.
Qed.

Lemma length_five {A} (l : list A) :
  length l = 5%nat → ∃ a b c d e, l = [a; b; c; d; e].
Proof.
  destruct l as [|a [|b [|c [|d [|e [|f l]]]]]]; try done.
  intros _. by eexists _, _, _, _, _.
Qed.

(** C7. A judge holds 5 votes and any non-negative score, and casts a
    6th vote; all six are on the one battle pair, no two consecutive
    winners are equal, and each vote comes more than 3 seconds after the
    one before. Then on the evaluation of the 6th vote the
    repetitive-battle signal is true, the strong-bias and fast-vote
    signals are false, no rule fires (whatever [triggered_rules] held
    before), and the new score is the old one multiplied by 0.9. *)
Theorem repetitive_battle_alone_fires_nothing st w now p :
  B64.sign_clear (suspicion_score st) = true →
  all_on_pair arena_pair (vote_history st) →
  length (vote_history st) = 5%nat →
  let h := vote_history (appended w now st) in
  let st' := handle_vote w now p st in
  adjacent_differ (winner <$> h) = true →
  spaced_over 3000000 (tstamp <$> h) = true →
  all_on_pair arena_pair h ∧
  is_repetitive_battle h = true ∧
  has_strong_bias h = false ∧
  is_fast_vote h = false ∧
  triggered_rules st' = ∅ ∧
  suspicion_score st' = B64.mul (suspicion_score st) B64.c0_9.
Proof.
  intros Hsc Hpair Hl h st' Hw Ht.
  assert (all_on_pair arena_pair h) as Hp by by apply appended_on_pair.
  assert (is_repetitive_battle h = true) as Hrb.
  { rewrite (is_repetitive_battle_one_pair arena_pair) by done.
    subst h. unfold appended; simpl. rewrite length_app, Hl. done. }
  destruct (length_five _ Hl) as (r1 & r2 & r3 & r4 & r5 & Hh).
  assert (has_strong_bias h = false) as Hsb.
  { apply not_true_is_false. rewrite has_strong_bias_true.
    intros [_ (w' & _ & Hw')].
    subst h. unfold appended in Hw, Hw'; simpl in Hw, Hw'.
    rewrite Hh in Hw, Hw'. simpl in Hw, Hw'.
    injection Hw' as H2 H3 _ _ _.
    rewrite H2, H3 in Hw.
    by rewrite String.eqb_refl, andb_false_r in Hw. }
  assert (is_fast_vote h = false) as Hfv.
  { subst h. unfold appended in Ht |- *; simpl in Ht |- *.
    rewrite Hh in Ht |- *.
    change ([r1; r2; r3; r4; r5] ++ [?r6]) with ([r1; r2; r3; r4] ++ [r5; r6]).
    rewrite is_fast_vote_snoc. simpl in Ht |- *.
    apply Z.ltb_ge.
    rewrite !andb_true_iff, !Z.ltb_lt in Ht. lia. }
  repeat (split; [done|]).
  destruct (handle_vote_long w now p st) as (Hs & _ & Htr); [lia|].
  subst st'. rewrite Hs, Htr.
  rewrite evaluated_score by done. unfold evaluated; simpl.
  fold (appended w now st). fold h.
  rewrite apply_rules_quiet; done.
Qed.

(** A judge at score 7.0 (Suspicious, two rules shown) whose five votes
    alternate between the models, four seconds apart. *)
Definition alternating_judge_at_seven : session_state :=
  let vote w t s :=
    mk_vote_record "user_1b9d6bcd" "model_alpha" "model_beta"
      ("model_alpha", "model_beta") w t "Explain gravity." (Some (B64.of_Z s)) in
  {| vote_history :=
       [ vote "model_a" 0 7; vote "model_b" 4000000 7;
         vote "model_a" 8000000 7; vote "model_b" 12000000 7;
         vote "model_a" 16000000 7 ];
     session_judge_hash := "user_1b9d6bcd";
     suspicion_score := B64.of_Z 7;
     status := Suspicious;
     triggered_rules := {[ "Fast & Biased"; "Biased & Repetitive Battles" ]};
     current_prompt := "Tell me a joke." |}.

Lemma repetitive_battle_alone_fires_nothing_witness :
  let st := alternating_judge_at_seven in
  let h := vote_history (appended "model_b" 20000001 st) in
  let st' := handle_vote "model_b" 20000001 "Tell me a joke." st in
  (suspicion_score st = S754_finite false 7881299347898368 (-50) ∧
   B64.mul (suspicion_score st) B64.c0_9
     = S754_finite false 7093169413108531 (-50)) ∧
  all_on_pair arena_pair h ∧
  is_repetitive_battle h = true ∧
  has_strong_bias h = false ∧
  is_fast_vote h = false ∧
  triggered_rules st' = ∅ ∧
  suspicion_score st' = B64.mul (suspicion_score st) B64.c0_9.
Proof.
  intros st. split; [vm_compute; exact (conj eq_refl eq_refl)|].
  apply (repetitive_battle_alone_fires_nothing st "model_b" 20000001
           "Tell me a joke.").
  - reflexivity.
  - by repeat constructor.
  - reflexivity.
  - vm_compute. reflexivity.
  - vm_compute. reflexivity.
Defined.

(** ** The fast and biased sixth vote *)

Lemma nunique_cons x l :
  nunique (x :: l) = S (size ((list_to_set l : gset string) ∖ {[ x ]})).
Proof.
  unfold nunique. by rewrite list_to_set_cons, size_union_alt, size_singleton.
Qed.

Lemma nunique_le l : (nunique l ≤ length l)%nat.
Proof.
  induction l as [|x l IH]; [done|].
  rewrite nunique_cons. cbn [length].
  assert (size ((list_to_set l : gset string) ∖ {[ x ]}) ≤ nunique l)%nat
    by (unfold nunique; apply subseteq_size; set_solver).
  lia.
Qed.

Lemma div_by_six_below_0_3 n :
  (1 ≤ n ≤ 6)%nat →
  B64.ltb (B64.div (B64.of_nat n) (B64.of_nat 6)) B64.c0_3
  = bool_decide (n = 1%nat).
Proof.
  intros Hn.
  destruct n as [|[|[|[|[|[|[|n]]]]]]]; try lia; by vm_compute.
Qed.

Lemma is_repetitive_prompt_six h :
  length h = 6%nat →
  is_repetitive_prompt h = bool_decide (nunique (prompt <$> h) = 1%nat).
Proof.
  intros Hl. unfold is_repetitive_prompt, prompt_diversity. rewrite Hl.
  change (0 <? 6)%nat with true. change (5 <? 6)%nat with true.
  cbv iota. rewrite andb_true_r.
  apply div_by_six_below_0_3.
  pose proof (nunique_le (prompt <$> h)) as Hle.
  rewrite length_fmap, Hl in Hle. split; [|done].
  destruct h as [|r h]; [done|]. rewrite fmap_cons, nunique_cons. lia.
Qed.

(** Every vote of the history is for model A. *)
Definition all_for_model_a (h : list vote_record) : bool :=
  forallb (λ r, String.eqb (winner r) "model_a") h.

Lemma all_for_model_a_Forall h :
  all_for_model_a h = true → Forall (λ r, winner r = "model_a") h.
Proof.
  induction h as [|r h IH]; simpl; [constructor|].
  rewrite andb_true_iff, String.eqb_eq. intros [Hr Hh]. constructor; auto.
Qed.

Lemma no_ties_filter h :
  Forall (λ r, winner r = "model_a") h →
  List.filter (λ r, str_contains "tie" (winner r)) h = [].
Proof.
  induction 1 as [|r h Hr _ IH]; [done|].
  cbn [List.filter]. rewrite Hr.
  change (str_contains "tie" "model_a") with false. exact IH.
Qed.

Lemma no_excessive_ties_six h :
  length h = 6%nat → Forall (λ r, winner r = "model_a") h →
  has_excessive_ties h = false.
Proof.
  intros Hl Ha. unfold has_excessive_ties, tie_rate.
  rewrite (no_ties_filter h Ha), Hl. by vm_compute.
Qed.

Lemma apply_rules_fast_biased_repetitive sg s :
  fast_vote sg = true → strong_bias sg = true → repetitive_battle sg = true →
  excessive_ties sg = false →
  apply_rules sg s =
  ( (let s := B64.add (B64.add s (B64.of_Z 4)) (B64.of_Z 3) in
     if repetitive_prompt sg then B64.add s (B64.of_Z 2) else s),
    {[ "Fast & Biased"; "Biased & Repetitive Battles" ]} ∪
    (if repetitive_prompt sg then {[ "Fast & Repetitive Prompts" ]} else ∅) ).
Proof.
  intros Hf Hb Hr He.
  unfold apply_rules, individual_rules, fast_voting_rule, strong_bias_rule,
    combination_rules, none_triggered.
  rewrite Hf, Hb, Hr, He.
  destruct (repetitive_prompt sg); cbn [andb rule fst snd];
    rewrite !bool_decide_eq_false_2 by set_solver;
    cbn [andb rule fst snd]; f_equal; set_solver.
Qed.

(** C4, as the code has it. A judge of a session has cast 5 votes, all for
    model A, and casts a 6th for model A less than 3 seconds after the
    5th. All six votes are on the one battle pair of [handle_vote], so the
    evaluation of the 6th fires "Fast & Biased" and "Biased & Repetitive
    Battles", and also "Fast & Repetitive Prompts" when the six votes had
    one and the same prompt; no fallback rule fires. The score is the old
    one times 0.9, plus 4, plus 3, plus 2 in the one-prompt case. *)
Theorem fast_and_biased_sixth_vote st now p r5 :
  reachable st →
  length (vote_history st) = 5%nat →
  all_for_model_a (vote_history st) = true →
  last (vote_history st) = Some r5 →
  now - tstamp r5 < 3000000 →
  let h := vote_history (appended "model_a" now st) in
  let st' := handle_vote "model_a" now p st in
  let one_prompt := bool_decide (nunique (prompt <$> h) = 1%nat) in
  triggered_rules st' =
    {[ "Fast & Biased"; "Biased & Repetitive Battles" ]} ∪
    (if one_prompt then {[ "Fast & Repetitive Prompts" ]} else ∅) ∧
  suspicion_score st' =
    (let s := B64.add (B64.add (B64.mul (suspicion_score st) B64.c0_9)
                               (B64.of_Z 4)) (B64.of_Z 3) in
     if one_prompt then B64.add s (B64.of_Z 2) else s).
Proof.
  intros Hr Hl Ha Hlast Hfast h st' one_prompt.
  assert (length h = 6%nat) as Hl6.
  { subst h. unfold appended; simpl. rewrite length_app, Hl. done. }
  assert (Forall (λ r, winner r = "model_a") h) as Hall.
  { subst h. unfold appended; simpl. apply Forall_app. split.
    - by apply all_for_model_a_Forall.
    - by repeat constructor. }
  assert (is_repetitive_battle h = true) as Hrb.
  { rewrite (is_repetitive_battle_one_pair arena_pair), Hl6; [done|].
    by apply appended_on_pair, reachable_on_pair. }
  assert (is_repetitive_prompt h = one_prompt) as Hrp
    by by apply is_repetitive_prompt_six.
  assert (has_excessive_ties h = false) as Het
    by by apply no_excessive_ties_six.
  destruct (length_five _ Hl) as (r1 & r2 & r3 & r4 & r5' & Hh).
  assert (r5' = r5) as -> by (rewrite Hh in Hlast; simpl in Hlast; congruence).
  assert (is_fast_vote h = true) as Hfv.
  { subst h. unfold appended; simpl. rewrite Hh.
    change ([r1; r2; r3; r4; r5] ++ [?r6]) with ([r1; r2; r3; r4] ++ [r5; r6]).
    rewrite is_fast_vote_snoc. simpl. by apply Z.ltb_lt. }
  assert (has_strong_bias h = true) as Hsb.
  { rewrite has_strong_bias_true. split; [lia|].
    exists "model_a". split; [by left|].
    assert (Forall (λ r, winner r = "model_a") (tail 5 h)) as Ht
      by (unfold tail; by apply Forall_drop).
    pose proof (tail_length 5 h) as Htl. rewrite Hl6 in Htl.
    destruct (tail 5 h) as [|a [|b [|c [|d [|e [|f t]]]]]]; try done.
    rewrite !Forall_cons in Ht. destruct Ht as (H1 & H2 & H3 & H4 & H5 & _).
    change (winner <$> [a; b; c; d; e])
      with [winner a; winner b; winner c; winner d; winner e].
    by rewrite H1, H2, H3, H4, H5. }
  destruct (handle_vote_long "model_a" now p st) as (Hs & _ & Htr); [lia|].
  destruct (reachable_consistent st Hr) as [Hsc _].
  subst st'. rewrite Hs, Htr, evaluated_score by done.
  unfold evaluated. cbn [triggered_rules suspicion_score].
  fold h. rewrite apply_rules_fast_biased_repetitive by done.
  cbn [fst snd repetitive_prompt compute_signals]. by rewrite Hrp.
Qed.

(** Each timestamp is at least [gap] microseconds after the one before. *)
Fixpoint spaced_at_least (gap : Z) (ts : list Z) : bool :=
  match ts with
  | t1 :: (t2 :: _) as rest => (gap <=? t2 - t1) && spaced_at_least gap rest
  | _ => true
  end.

Lemma fast_and_biased_sixth_vote_witness :
  let st := five_votes_for_model_a in
  let st' := handle_vote "model_a" 13000000 "Tell me a joke." st in
  triggered_rules st' = {[ "Fast & Biased"; "Biased & Repetitive Battles" ]} ∧
  suspicion_score st' =
    B64.add (B64.add (B64.mul (suspicion_score st) B64.c0_9) (B64.of_Z 4))
            (B64.of_Z 3).
Proof.
  intros st st'.
  assert (reachable st) as Hr by apply reachable_run, reachable_init.
  destruct (fast_and_biased_sixth_vote st 13000000 "Tell me a joke."
              (mk_vote_record "user_1b9d6bcd" "model_alpha" "model_beta"
                 ("model_alpha", "model_beta") "model_a" 12000000
                 "Tell me a joke." (Some B64.c1_0)) Hr)
    as [Ht Hs].
  - vm_compute. reflexivity.
  - vm_compute. reflexivity.
  - vm_compute. reflexivity.
  - reflexivity.
  - subst st'. split.
    + rewrite Ht. vm_compute. reflexivity.
    + rewrite Hs. vm_compute. reflexivity.
Defined.

(** C4 as stated fails: after five votes for model A three seconds apart,
    a sixth vote for model A one second after the fifth does not leave
    the singleton of "Fast & Biased" in [triggered_rules], and the score is
    not the decayed score plus 4. *)
Lemma fast_and_biased_singleton_counterexample :
  let st := five_votes_for_model_a in
  let now := 13000000 in
  let st' := handle_vote "model_a" now "Tell me a joke." st in
  (length (vote_history st) = 5%nat ∧
   all_for_model_a (vote_history st) = true ∧
   spaced_at_least 3000000 (tstamp <$> vote_history st) = true ∧
   (tstamp <$> last (vote_history st)) = Some 12000000 ∧
   now - 12000000 < 3000000) ∧
  ¬ (triggered_rules st' = {[ "Fast & Biased" ]} ∧
     suspicion_score st' =
       B64.add (B64.mul (suspicion_score st) B64.c0_9) (B64.of_Z 4)).
Proof.
  intros st now st'. split.
  - repeat split; by vm_compute.
  - intros [_ Hs]. vm_compute in Hs. discriminate Hs.
Qed.

(** The values on that input: the fifth vote ("Strong Bias") left a score
    of 1.0; the sixth leaves 0.9 + 4 + 3. *)
Example fast_and_biased_values :
  let st := five_votes_for_model_a in
  let st' := handle_vote "model_a" 13000000 "Tell me a joke." st in
  suspicion_score st = B64.c1_0 ∧
  suspicion_score st' = S754_finite false 8894609264056730 (-50) ∧
  status st' = Suspicious.
Proof. vm_compute. exact (conj eq_refl (conj eq_refl eq_refl)). Qed.

(** ** The literals *)

Example literals_are_nearest_doubles :
  B64.c0_9 = B64.div (B64.of_Z 9) (B64.of_Z 10) ∧
  B64.c0_3 = B64.div (B64.of_Z 3) (B64.of_Z 10) ∧
  B64.c0_8 = B64.div (B64.of_Z 8) (B64.of_Z 10).
Proof. vm_compute. exact (conj eq_refl (conj eq_refl eq_refl)). Qed.

Example arena_votes_contain_tie :
  str_contains "tie" "tie" = true ∧ str_contains "tie" "tie (bothbad)" = true ∧
  str_contains "tie" "model_a" = false ∧ str_contains "tie" "model_b" = false.
Proof. vm_compute. exact (conj eq_refl (conj eq_refl (conj eq_refl eq_refl))). Qed.

(** * Further properties of the session *)

(** ** The history is append-only *)

Definition is_vote (a : action) : bool :=
  match a with Vote _ _ _ => true | Generate _ => false end.

(** The number of votes among the actions. *)
Definition votes_in (acts : list action) : nat := length (List.filter is_vote acts).

(** However a page is used, the records already in [vote_history] stay
    where and as they are; each vote adds one record at the end and
    "Generate Responses" adds none. *)
Theorem history_append_only st acts :
  vote_history st `prefix_of` vote_history (run st acts) ∧
  length (vote_history (run st acts)) = (length (vote_history st) + votes_in acts)%nat.
Proof.
  revert st. induction acts as [|[w now p|q] acts IH]; intros st.
  - split; [done|]. unfold votes_in; simpl. lia.
  - destruct (IH (handle_vote w now p st)) as [Hp Hl].
    change (run st (Vote w now p :: acts)) with (run (handle_vote w now p st) acts).
    split.
    + etrans; [|exact Hp]. rewrite handle_vote_history. by apply prefix_app_r.
    + rewrite Hl, handle_vote_length. unfold votes_in; simpl. lia.
  - destruct (IH (generate_responses q st)) as [Hp Hl].
    change (run st (Generate q :: acts)) with (run (generate_responses q st) acts).
    split; [exact Hp|]. rewrite Hl. unfold votes_in; simpl. lia.
Qed.

(** ** The audit column *)

(** Every record carries a [suspicion_score_after], and the one on the last
    record is the score now in the state. *)
Definition audited (st : session_state) : Prop :=
  Forall (λ r, is_Some (suspicion_score_after r)) (vote_history st) ∧
  ∀ r, last (vote_history st) = Some r →
       suspicion_score_after r = Some (suspicion_score st).

Lemma audited_handle_vote w now p st : audited st → audited (handle_vote w now p st).
Proof.
  intros [Hall _]. unfold audited. rewrite handle_vote_history. split.
  - apply Forall_app. split; [done|]. by repeat constructor.
  - intros r. rewrite last_snoc. by intros [= <-].
Qed.

(** In every state of a session each record of [vote_history] has its
    [suspicion_score_after] (the column the sidebar selects has no hole),
    and the last record shows the current score, also after the prompt was
    regenerated. *)
Theorem audit_column_complete st : reachable st → audited st.
Proof.
  induction 1 as [uuid|st [w now p|q] _ IH].
  - split; [constructor|done].
  - by apply audited_handle_vote.
  - exact IH.
Qed.

Lemma audit_column_complete_witness :
  audited (run (session_state_init "1b9d6bcd")
             [ Vote "model_a" 0 "Tell me a joke.";
               Generate "Write python code.";
               Vote "tie" 1000000 "Explain gravity.";
               Vote "model_a" 2000000 "Tell me a joke.";
               Generate "What is a monad?" ]).
Proof. apply audit_column_complete, reachable_run, reachable_init. Defined.

(** ** The first two votes *)

(** While a session holds fewer than 3 votes nothing was ever evaluated:
    the score is 0.0, the status Normal and no rule is shown. *)
Theorem untouched_below_three_votes st :
  reachable st →
  (length (vote_history st) < 3)%nat →
  suspicion_score st = B64.zero ∧ status st = Normal ∧ triggered_rules st = ∅.
Proof.
  induction 1 as [uuid|st [w now p|q] _ IH]; intros Hl.
  - done.
  - change (step st (Vote w now p)) with (handle_vote w now p st) in *.
    rewrite handle_vote_length in Hl.
    destruct (handle_vote_short w now p st) as (-> & -> & ->); [lia|].
    apply IH. lia.
  - by apply IH.
Qed.

Lemma untouched_below_three_votes_witness :
  let st := run (session_state_init "1b9d6bcd")
              [ Vote "model_a" 0 "Tell me a joke.";
                Vote "model_a" 100000 "Tell me a joke." ] in
  suspicion_score st = B64.zero ∧ status st = Normal ∧ triggered_rules st = ∅.
Proof.
  intros st. apply untouched_below_three_votes.
  - apply reachable_run, reachable_init.
  - vm_compute. lia.
Defined.

(** ** Who voted on what *)

(** The constant part of the records a session writes. *)
Definition signed_by (judge : string) (r : vote_record) : Prop :=
  judge_hash r = judge ∧ model_a r = "model_alpha" ∧ model_b r = "model_beta" ∧
  battle_pair r = ("model_alpha", "model_beta").

Lemma run_signed judge acts : ∀ st,
  session_judge_hash st = judge →
  Forall (signed_by judge) (vote_history st) →
  session_judge_hash (run st acts) = judge ∧
  Forall (signed_by judge) (vote_history (run st acts)).
Proof.
  induction acts as [|[w now p|q] acts IH]; intros st Hj Hs; [done| |].
  - change (run st (Vote w now p :: acts)) with (run (handle_vote w now p st) acts).
    apply IH.
    + unfold handle_vote; simpl. fold (appended w now st).
      destruct (Nat.lt_ge_cases (length (vote_history (appended w now st))) 3).
      * by rewrite update_short.
      * by rewrite update_long.
    + rewrite handle_vote_history. apply Forall_app. split; [done|].
      by repeat constructor.
  - change (run st (Generate q :: acts)) with (run (generate_responses q st) acts).
    by apply IH.
Qed.

(** The judge identifier drawn when the session starts never changes, and
    every vote of the session is recorded under it, with the two fixed
    model names and their pair. *)
Theorem session_identity uuid acts :
  let st := run (session_state_init uuid) acts in
  session_judge_hash st = "user_" +:+ uuid ∧
  Forall (signed_by ("user_" +:+ uuid)) (vote_history st).
Proof. apply run_signed; [done|constructor]. Qed.

(** ** The rule table as a decision table *)

Definition rule_names : gset string :=
  {[ "Fast & Biased"; "Biased & Repetitive Battles";
     "Fast & Repetitive Prompts"; "Fast & Excessive Ties";
     "Strong Bias"; "Fast Voting" ]}.

Lemma elem_of_rule x c pen n acc :
  x ∈ (rule c pen n acc).2 ↔ (c = true ∧ x = n) ∨ x ∈ acc.2.
Proof. rewrite rule_triggered. destruct c; set_solver. Qed.

Lemma none_triggered_rule c pen n acc :
  none_triggered (rule c pen n acc) = negb c && none_triggered acc.
Proof.
  unfold none_triggered. rewrite rule_triggered. destruct c; [|done].
  apply bool_decide_eq_false_2. set_solver.
Qed.

Lemma none_triggered_start (s : float) : none_triggered (s, ∅) = true.
Proof. by apply bool_decide_eq_true_2. Qed.

(** Which names one evaluation leaves in [triggered], by the signals. *)
Lemma elem_of_apply_rules sg s x :
  x ∈ (apply_rules sg s).2 ↔
  (fast_vote sg && strong_bias sg = true ∧ x = "Fast & Biased") ∨
  (strong_bias sg && repetitive_battle sg = true ∧
     x = "Biased & Repetitive Battles") ∨
  (fast_vote sg && repetitive_prompt sg = true ∧
     x = "Fast & Repetitive Prompts") ∨
  (fast_vote sg && excessive_ties sg = true ∧ x = "Fast & Excessive Ties") ∨
  (strong_bias sg && negb (fast_vote sg) && negb (repetitive_battle sg) = true ∧
     x = "Strong Bias") ∨
  (fast_vote sg && negb (strong_bias sg) && negb (repetitive_prompt sg)
     && negb (excessive_ties sg) = true ∧ x = "Fast Voting").
Proof.
  unfold apply_rules, individual_rules, fast_voting_rule, strong_bias_rule,
    combination_rules.
  rewrite !elem_of_rule, !none_triggered_rule, none_triggered_start.
  cbn [snd]. rewrite elem_of_empty.
  destruct (fast_vote sg), (strong_bias sg), (repetitive_battle sg),
    (repetitive_prompt sg), (excessive_ties sg); cbn [andb negb];
    intuition congruence.
Qed.

Lemma apply_rules_names sg s : (apply_rules sg s).2 ⊆ rule_names.
Proof.
  intros x. rewrite elem_of_apply_rules. unfold rule_names.
  intros [[_ ->]|[[_ ->]|[[_ ->]|[[_ ->]|[[_ ->]|[_ ->]]]]]]; set_solver.
Qed.

(** A vote on a history of at least 2 events replaces [triggered_rules]
    by a set that depends on the five signals of the new history only
    (nothing of the old set survives): each combination rule is in it
    exactly when its two signals hold, "Strong Bias" exactly when the bias
    signal holds without the fast-vote and repetitive-battle signals, and
    "Fast Voting" exactly when the fast-vote signal holds without the
    bias, repetitive-prompt and excessive-ties signals. *)
Theorem rule_decision_table st w now p :
  (2 ≤ length (vote_history st))%nat →
  let sg := compute_signals (vote_history (appended w now st)) in
  let T := triggered_rules (handle_vote w now p st) in
  ("Fast & Biased" ∈ T ↔ fast_vote sg && strong_bias sg = true) ∧
  ("Biased & Repetitive Battles" ∈ T ↔
     strong_bias sg && repetitive_battle sg = true) ∧
  ("Fast & Repetitive Prompts" ∈ T ↔
     fast_vote sg && repetitive_prompt sg = true) ∧
  ("Fast & Excessive Ties" ∈ T ↔ fast_vote sg && excessive_ties sg = true) ∧
  ("Strong Bias" ∈ T ↔
     strong_bias sg && negb (fast_vote sg) && negb (repetitive_battle sg) = true) ∧
  ("Fast Voting" ∈ T ↔
     fast_vote sg && negb (strong_bias sg) && negb (repetitive_prompt sg)
       && negb (excessive_ties sg) = true) ∧
  T ⊆ rule_names.
Proof.
  intros Hl sg T.
  destruct (handle_vote_long w now p st Hl) as (_ & _ & Htr).
  assert (T = (apply_rules sg (decay (suspicion_score st))).2) as ->
    by (subst T; by rewrite Htr).
  repeat split; try apply apply_rules_names;
    try (rewrite elem_of_apply_rules; intuition congruence).
Qed.

Lemma rule_decision_table_witness :
  let st := five_votes_for_model_a in
  let T := triggered_rules (handle_vote "model_a" 20000000 "Tell me a joke." st) in
  ("Strong Bias" ∉ T) ∧ ("Biased & Repetitive Battles" ∈ T).
Proof.
  intros st T.
  assert (2 ≤ length (vote_history st))%nat as Hl by (vm_compute; lia).
  pose proof (rule_decision_table st "model_a" 20000000 "Tell me a joke." Hl)
    as (_ & Hbr & _ & _ & Hsb & _).
  split.
  - intros Hin. apply Hsb in Hin. vm_compute in Hin. discriminate Hin.
  - apply Hbr. vm_compute. reflexivity.
Defined.

(** In every state of a session [triggered_rules] holds only names of the
    six rules. *)
Theorem triggered_rules_are_rule_names st :
  reachable st → triggered_rules st ⊆ rule_names.
Proof.
  induction 1 as [uuid|st [w now p|q] _ IH].
  - apply empty_subseteq.
  - change (step st (Vote w now p)) with (handle_vote w now p st).
    destruct (Nat.lt_ge_cases (length (vote_history st)) 2) as [Hl|Hl].
    + by destruct (handle_vote_short w now p st Hl) as (_ & _ & ->).
    + destruct (handle_vote_long w now p st Hl) as (_ & _ & ->).
      apply apply_rules_names.
  - exact IH.
Qed.

Lemma triggered_rules_are_rule_names_witness :
  triggered_rules
    (handle_vote "model_a" 13000000 "Tell me a joke." five_votes_for_model_a)
  ⊆ rule_names.
Proof.
  apply triggered_rules_are_rule_names.
  apply (reachable_step _ (Vote "model_a" 13000000 "Tell me a joke.")).
  apply reachable_run, reachable_init.
Defined.

(** ** The repetitive-battle signal counts occurrences *)

(** How often [k] occurs in [l]. *)
Definition occurrences `{EqDecision K} (k : K) (l : list K) : nat :=
  length (filter (λ x, x = k) l).

Lemma occurrences_cons `{EqDecision K} (k x : K) l :
  occurrences k (x :: l) =
  if decide (x = k) then S (occurrences k l) else occurrences k l.
Proof. unfold occurrences. rewrite filter_cons. by destruct (decide (x = k)). Qed.

Lemma occurrences_le `{EqDecision K} (k : K) l : (occurrences k l ≤ length l)%nat.
Proof. apply length_filter. Qed.

Lemma value_counts_lookup `{Countable K} (l : list K) (k : K) :
  value_counts l !! k =
  if decide (occurrences k l = 0%nat) then None else Some (occurrences k l).
Proof.
  induction l as [|x l IH]; [apply lookup_empty|].
  change (value_counts (x :: l))
    with (<[x := S (default 0%nat (value_counts l !! x))]> (value_counts l)).
  rewrite occurrences_cons.
  destruct (decide (x = k)) as [->|Hne].
  - rewrite lookup_insert_eq, IH.
    destruct (decide (occurrences k l = 0%nat)) as [->|]; by simpl.
  - by rewrite lookup_insert_ne.
Qed.

Lemma max_list_above n ns : (n < max_list ns)%nat ↔ ∃ x, x ∈ ns ∧ (n < x)%nat.
Proof.
  induction ns as [|y ns IH]; simpl.
  - split; [lia|]. intros (x & Hx & _). by apply elem_of_nil in Hx.
  - split.
    + intros Hlt. destruct (Nat.max_spec y (max_list ns)) as [[_ Hm]|[_ Hm]].
      * rewrite Hm in Hlt. apply IH in Hlt as (x & Hx & Hn).
        exists x. split; [by right|done].
      * rewrite Hm in Hlt. exists y. split; [by left|done].
    + intros (x & Hx & Hn). apply elem_of_cons in Hx as [->|Hx]; [lia|].
      assert (n < max_list ns)%nat by (apply IH; eauto). lia.
Qed.

Lemma counts_max_above `{Countable K} (l : list K) n :
  (n < counts_max (value_counts l))%nat ↔ ∃ k, (n < occurrences k l)%nat.
Proof.
  unfold counts_max. rewrite max_list_above. split.
  - intros (x & Hx & Hn).
    apply list_elem_of_fmap in Hx as ([k v] & -> & Hkv).
    apply elem_of_map_to_list in Hkv. rewrite value_counts_lookup in Hkv.
    exists k. destruct (decide (occurrences k l = 0%nat)); [done|].
    by injection Hkv as <-.
  - intros (k & Hn). exists (occurrences k l). split; [|done].
    apply list_elem_of_fmap. exists (k, occurrences k l). split; [done|].
    apply elem_of_map_to_list. rewrite value_counts_lookup.
    destruct (decide (occurrences k l = 0%nat)); [lia|done].
Qed.

(** The repetitive-battle signal is true exactly when some battle pair
    occurs more than 5 times in the whole history. *)
Theorem repetitive_battle_counts h :
  is_repetitive_battle h = true ↔
  ∃ pair, (5 < occurrences pair (battle_pair <$> h))%nat.
Proof.
  unfold is_repetitive_battle. rewrite <- counts_max_above.
  case_bool_decide as He.
  - rewrite He. split; [done|]. unfold counts_max.
    rewrite map_to_list_empty. simpl. lia.
  - apply Nat.ltb_lt.
Qed.

(** ** Histories of at most five events *)

(** On a history of at most 5 events the three whole-history signals
    (repetitive battle, repetitive prompt, excessive ties) are false, and
    on one of at most 4 events so is the strong-bias signal. *)
Theorem short_history_signals h :
  ((length h ≤ 5)%nat →
     is_repetitive_battle h = false ∧ is_repetitive_prompt h = false ∧
     has_excessive_ties h = false) ∧
  ((length h ≤ 4)%nat → has_strong_bias h = false).
Proof.
  split.
  - intros Hl. split; [|split].
    + apply not_true_is_false. rewrite repetitive_battle_counts.
      intros (pair & Hp).
      pose proof (occurrences_le pair (battle_pair <$> h)) as Hle.
      rewrite length_fmap in Hle. lia.
    + unfold is_repetitive_prompt.
      rewrite (proj2 (Nat.ltb_ge 5 (length h))) by done. apply andb_false_r.
    + unfold has_excessive_ties.
      rewrite (proj2 (Nat.ltb_ge 5 (length h))) by done. apply andb_false_r.
  - intros Hl. apply not_true_is_false. rewrite has_strong_bias_true. lia.
Qed.

Lemma short_history_signals_witness :
  let vote w t := mk_vote_record "user_1b9d6bcd" "model_alpha" "model_beta"
                    ("model_alpha", "model_beta") w t "Explain gravity." None in
  let h := [vote "tie" 0; vote "tie" 1; vote "tie" 2; vote "tie" 3] in
  (is_repetitive_battle h = false ∧ is_repetitive_prompt h = false ∧
   has_excessive_ties h = false) ∧ has_strong_bias h = false.
Proof.
  intros vote h. split.
  - apply (proj1 (short_history_signals h)). simpl. lia.
  - apply (proj2 (short_history_signals h)). simpl. lia.
Defined.

Lemma apply_rules_short sg s :
  repetitive_battle sg = false → repetitive_prompt sg = false →
  excessive_ties sg = false →
  apply_rules sg s =
  if fast_vote sg && strong_bias sg
  then (B64.add s (B64.of_Z 4), {[ "Fast & Biased" ]})
  else if strong_bias sg then (B64.add s (B64.of_Z 1), {[ "Strong Bias" ]})
  else if fast_vote sg then (B64.add s (B64.of_Z 1), {[ "Fast Voting" ]})
  else (s, ∅).
Proof.
  intros Hrb Hrp Het.
  unfold apply_rules, individual_rules, fast_voting_rule, strong_bias_rule,
    combination_rules.
  rewrite !none_triggered_rule, none_triggered_start, Hrb, Hrp, Het.
  destruct (fast_vote sg), (strong_bias sg); cbn [andb negb rule fst snd];
    f_equal; set_solver.
Qed.

(** The third, fourth and fifth vote of a session fire at most one rule:
    "Fast & Biased" (+4) when the vote is fast and the bias window is full
    of one model, else "Strong Bias" (+1) on a full bias window, else
    "Fast Voting" (+1) when the vote is fast, else nothing; the penalty is
    added to the old score times 0.9. On the third and fourth vote the
    bias window is not full. *)
Theorem third_to_fifth_vote st w now p :
  reachable st →
  (2 ≤ length (vote_history st) ≤ 4)%nat →
  let h := vote_history (appended w now st) in
  let st' := handle_vote w now p st in
  let s := B64.mul (suspicion_score st) B64.c0_9 in
  (suspicion_score st', triggered_rules st') =
    (if is_fast_vote h && has_strong_bias h
     then (B64.add s (B64.of_Z 4), {[ "Fast & Biased" ]})
     else if has_strong_bias h then (B64.add s (B64.of_Z 1), {[ "Strong Bias" ]})
     else if is_fast_vote h then (B64.add s (B64.of_Z 1), {[ "Fast Voting" ]})
     else (s, ∅)) ∧
  ((length (vote_history st) ≤ 3)%nat → has_strong_bias h = false).
Proof.
  intros Hr Hl h st' s.
  assert (length h = S (length (vote_history st))) as Hlh.
  { subst h. unfold appended; simpl. rewrite length_app. simpl. lia. }
  destruct (short_history_signals h) as [H5 H4].
  destruct H5 as (Hrb & Hrp & Het); [lia|].
  split; [|intros; apply H4; lia].
  destruct (handle_vote_long w now p st) as (Hs & _ & Htr); [lia|].
  destruct (reachable_consistent st Hr) as [Hsc _].
  subst st'. rewrite Hs, Htr, evaluated_score by done.
  unfold evaluated. cbn [triggered_rules]. fold h.
  rewrite <- surjective_pairing.
  by rewrite apply_rules_short.
Qed.

Lemma third_to_fifth_vote_witness :
  let st := run (session_state_init "1b9d6bcd")
              [ Vote "model_a" 0 "Tell me a joke.";
                Vote "model_b" 1000000 "Explain gravity." ] in
  let st' := handle_vote "tie" 2500000 "Tell me a joke." st in
  (suspicion_score st', triggered_rules st') =
    (B64.add (B64.mul (suspicion_score st) B64.c0_9) (B64.of_Z 1),
     {[ "Fast Voting" ]}).
Proof.
  intros st st'.
  assert (reachable st) as Hr by apply reachable_run, reachable_init.
  assert (2 ≤ length (vote_history st) ≤ 4)%nat as Hl by (vm_compute; lia).
  exact (proj1 (third_to_fifth_vote st "tie" 2500000 "Tell me a joke." Hr Hl)).
Defined.

(** ** The excessive-ties signal needs a tie *)

(** A history in which no winner contains 'tie' never has the
    excessive-ties signal, whatever its length. *)
Theorem no_tie_no_excessive_ties h :
  Forall (λ r, str_contains "tie" (winner r) = false) h →
  has_excessive_ties h = false.
Proof.
  intros Hall. unfold has_excessive_ties, tie_rate.
  assert (List.filter (λ r, str_contains "tie" (winner r)) h = []) as ->.
  { induction Hall as [|r h Hr _ IH]; [done|]. cbn [List.filter]. by rewrite Hr. }
  change (B64.of_nat (length (@nil vote_record))) with (S754_zero false).
  pose proof (of_Z_sign_clear (Z.of_nat (length h)) (Nat2Z.is_nonneg _)) as Hn.
  fold (B64.of_nat (length h)) in Hn.
  by destruct (B64.of_nat (length h)) as [[]|[]| |[] m e].
Qed.

Lemma no_tie_no_excessive_ties_witness :
  let vote w := mk_vote_record "user_1b9d6bcd" "model_alpha" "model_beta"
                  ("model_alpha", "model_beta") w 0 "Explain gravity." None in
  has_excessive_ties
    [vote "model_a"; vote "model_b"; vote "model_a"; vote "model_a";
     vote "model_b"; vote "model_b"; vote "model_a"] = false.
Proof.
  intros vote. apply no_tie_no_excessive_ties. by repeat constructor.
Defined.

(** ** Fixed windows *)

Lemma tail_app_window {A} n (h0 t : list A) :
  (n ≤ length t)%nat → tail n (h0 ++ t) = tail n t.
Proof.
  intros Hl. unfold tail. rewrite length_app.
  replace (length h0 + length t - n)%nat
    with (length h0 + (length t - n))%nat by lia.
  by rewrite drop_app_add.
Qed.

(** The strong-bias signal reads only the last 5 events and the fast-vote
    signal only the last 2: older events in front change neither. *)
Theorem signals_read_fixed_windows h0 t :
  ((5 ≤ length t)%nat → has_strong_bias (h0 ++ t) = has_strong_bias t) ∧
  ((2 ≤ length t)%nat → is_fast_vote (h0 ++ t) = is_fast_vote t).
Proof.
  split; intros Hl.
  - unfold has_strong_bias. by rewrite tail_app_window.
  - unfold is_fast_vote. rewrite rev_app_distr.
    pose proof (length_rev t) as Hr.
    destruct (rev t) as [|r1 [|r2 rest]]; simpl in Hr; try lia. done.
Qed.

Lemma signals_read_fixed_windows_witness :
  let vote w t := mk_vote_record "user_1b9d6bcd" "model_alpha" "model_beta"
                    ("model_alpha", "model_beta") w t "Explain gravity." None in
  let t := [vote "model_a" 0; vote "model_a" 1; vote "model_a" 2;
            vote "model_a" 3; vote "model_a" 4] in
  has_strong_bias ([vote "tie" 0; vote "model_b" 0] ++ t) = has_strong_bias t ∧
  is_fast_vote ([vote "tie" 0; vote "model_b" 0] ++ t) = is_fast_vote t.
Proof.
  intros vote t. split.
  - apply (proj1 (signals_read_fixed_windows _ t)). simpl. lia.
  - apply (proj2 (signals_read_fixed_windows _ t)). simpl. lia.
Defined.

(** ** The status tells the score range *)

Lemma leb_or_ltb c x : B64.sign_clear x = true → B64.sign_clear c = true →
  B64.leb c x = true ∨ B64.ltb x c = true.
Proof.
  intros Hx Hc. unfold B64.leb, B64.ltb, SFleb, SFltb.
  rewrite (SFcompare_swap x c).
  destruct x as [[]|[]| |[] mx ex]; try done;
    destruct c as [[]|[]| |[] mc ec]; try done; simpl; auto;
    destruct (ex ?= ec); simpl; auto; destruct (Pos.compare_cont Eq mx mc); auto.
Qed.

Lemma leb_not_ltb x y : B64.leb x y = true → B64.ltb y x = false.
Proof.
  unfold B64.ltb, B64.leb, SFltb, SFleb. rewrite (SFcompare_swap x y).
  by destruct (SFcompare x y) as [[]|].
Qed.

Lemma ge_10_ge_5 s : B64.leb B64.c10 s = true → B64.leb B64.c5 s = true.
Proof.
  destruct s as [?|[]| |[] m e]; try done.
  unfold B64.leb, SFleb, SFcompare, B64.c5, B64.c10.
  destruct (Z.compare_spec (-49) e) as [<-|He|He]; [| |discriminate].
  - by intros _.
  - intros _. by rewrite (proj2 (Z.compare_lt_iff (-50) e)) by lia.
Qed.

(** In every state of a session the status and the score range determine
    each other: FLAGGED exactly from 10 up, Suspicious exactly from 5 up
    to below 10, Normal exactly below 5. *)
Theorem status_tells_score_range st :
  reachable st →
  let s := suspicion_score st in
  (status st = Flagged ↔ B64.leb B64.c10 s = true) ∧
  (status st = Suspicious ↔ B64.leb B64.c5 s = true ∧ B64.ltb s B64.c10 = true) ∧
  (status st = Normal ↔ B64.ltb s B64.c5 = true).
Proof.
  intros Hr s. destruct (reachable_consistent st Hr) as [Hs Hc]. fold s in Hs, Hc.
  rewrite Hc.
  destruct (leb_or_ltb B64.c10 s Hs eq_refl) as [H10|H10];
    destruct (leb_or_ltb B64.c5 s Hs eq_refl) as [H5|H5].
  - rewrite (classify_flagged s H10).
    pose proof (leb_not_ltb _ _ H10). pose proof (leb_not_ltb _ _ H5).
    intuition congruence.
  - pose proof (ge_10_ge_5 s H10). pose proof (ltb_not_leb _ _ H5). congruence.
  - rewrite (classify_suspicious s H5 H10).
    pose proof (ltb_not_leb _ _ H10). pose proof (leb_not_ltb _ _ H5).
    intuition congruence.
  - rewrite (classify_normal s H5).
    pose proof (ltb_not_leb _ _ H10). pose proof (ltb_not_leb _ _ H5).
    intuition congruence.
Qed.

Lemma status_tells_score_range_witness :
  let st := handle_vote "model_a" 13000000 "Tell me a joke." five_votes_for_model_a in
  status st = Suspicious ∧
  B64.leb B64.c5 (suspicion_score st) = true ∧
  B64.ltb (suspicion_score st) B64.c10 = true.
Proof.
  intros st.
  assert (reachable st) as Hr.
  { apply (reachable_step _ (Vote "model_a" 13000000 "Tell me a joke.")).
    apply reachable_run, reachable_init. }
  assert (status st = Suspicious) as Hs by (vm_compute; reflexivity).
  split; [exact Hs|].
  exact (proj1 (proj1 (proj2 (status_tells_score_range st Hr))) Hs).
Defined.

(** ** The sidebar's progress bar *)

(** [min(a, b)]: Python keeps the first argument unless the second is
    strictly smaller. *)
Definition pymin (a b : float) : float := if B64.ltb b a then b else a.

(** The argument of [st.progress]: [min(suspicion_score / 10, 1.0)]. *)
Definition progress_value (st : session_state) : float :=
  pymin (B64.div (suspicion_score st) B64.c10) B64.c1_0.

Lemma div_core_nonneg m1 e1 m2 e2 :
  0 ≤ (SFdiv_core_binary B64.prec B64.emax (Zpos m1) e1 (Zpos m2) e2).1.1.
Proof.
  unfold SFdiv_core_binary.
  set (s := e1 - e2 - _).
  set (m' := match s with Z0 => Zpos m1 | Zpos _ => Z.shiftl (Zpos m1) s
             | Zneg _ => 0 end).
  assert (0 ≤ m') as Hm.
  { subst m'. destruct s; [lia| |lia]. by apply Z.shiftl_nonneg. }
  pose proof (Z.div_pos m' (Zpos m2) Hm eq_refl) as Hq.
  unfold Z.div in Hq. by destruct (Z.div_eucl m' (Zpos m2)) as [q r].
Qed.

Lemma div_sign_clear x m e :
  B64.sign_clear x = true →
  B64.sign_clear (B64.div x (S754_finite false m e)) = true.
Proof.
  intros Hx. destruct x as [[]|[]| |[] mx ex]; try done.
  unfold B64.div, SFdiv.
  pose proof (div_core_nonneg mx ex m e) as Hq.
  destruct (SFdiv_core_binary _ _ _ _ _ _) as [[mz ez] lz].
  by apply binary_round_aux_sign_clear.
Qed.

(** In every state of a session the value handed to the progress bar lies
    between 0.0 and 1.0, the only values [st.progress] accepts. *)
Theorem progress_value_in_unit_interval st :
  reachable st →
  B64.leb B64.zero (progress_value st) = true ∧
  B64.leb (progress_value st) B64.c1_0 = true.
Proof.
  intros Hr. destruct (reachable_consistent st Hr) as [Hs _].
  unfold progress_value, pymin.
  pose proof (div_sign_clear _ 5629499534213120 (-49) Hs) as Hd.
  fold B64.c10 in Hd.
  destruct (B64.ltb B64.c1_0 (B64.div (suspicion_score st) B64.c10)) eqn:Hlt.
  - done.
  - split; [by apply sign_clear_nonneg|].
    destruct (leb_or_ltb (B64.div (suspicion_score st) B64.c10) B64.c1_0 eq_refl Hd)
      as [H|H]; [done|congruence].
Qed.

Lemma progress_value_in_unit_interval_witness :
  let st := handle_vote "model_a" 13000000 "Tell me a joke." five_votes_for_model_a in
  B64.leb B64.zero (progress_value st) = true ∧
  B64.leb (progress_value st) B64.c1_0 = true.
Proof.
  apply progress_value_in_unit_interval.
  apply (reachable_step _ (Vote "model_a" 13000000 "Tell me a joke.")).
  apply reachable_run, reachable_init.
Defined.

(** ** The battle pair is canonical *)

(** [tuple(sorted((a, b)))] does not depend on the order of the two names,
    and its components are in ascending order. *)
Theorem sorted_pair_canonical a b :
  sorted_pair a b = sorted_pair b a ∧
  String.leb (sorted_pair a b).1 (sorted_pair a b).2 = true.
Proof.
  unfold sorted_pair, String.ltb.
  rewrite (String.compare_antisym b a).
  destruct (String.compare a b) eqn:Hc; cbn [CompOpp fst snd]; unfold String.leb.
  - apply String.compare_eq_iff in Hc as Hab. subst b. by rewrite Hc.
  - by rewrite Hc.
  - by rewrite (String.compare_antisym b a), Hc.
Qed.
